(** * KNX transport-layer protocol data unit: decoder and encoder

    A shallow embedding of [knx/proto/tpdu.go]: the [TPDU] record, its
    parser [ReadFrom] and its serialiser [WriteTo], together with the
    properties of the wire format that follow from the code.

    Go's [uint8] is modelled as [Z]; every operation of the source that can
    leave the range [0, 255] (the left shifts) is wrapped modulo 256 where the
    source performs it.  Masks ([&]), right shifts and [|] are [Z.land],
    [Z.shiftr] and [Z.lor]. *)

From Stdlib Require Import ZArith List Lia Bool.
Import ListNotations.
Local Open Scope Z_scope.

(** ** Bytes *)

Module U8.

(** Conversion to [uint8]: keep the low eight bits. *)
Definition wrap (x : Z) : Z := x mod 256.

(** [x << n] on a [uint8]. *)
Definition shl (x n : Z) : Z := wrap (Z.shiftl x n).

(** [x >> n] on a [uint8]. *)
Definition shr (x n : Z) : Z := Z.shiftr x n.

(** The values a [uint8] can hold. *)
Definition valid (x : Z) : Prop := 0 <= x < 256.

End U8.

(** ** Protocol control information *)

(** [type TPCI uint8] with its four named values. *)
Definition TPCI := Z.

Definition UnnumberedDataPacket : TPCI := 0.
Definition NumberedDataPacket : TPCI := 1.
Definition UnnumberedControlPacket : TPCI := 2.
Definition NumberedControlPacket : TPCI := 3.

(** [type APCI uint8] with its sixteen named values. *)
Definition APCI := Z.

Definition GroupValueRead : APCI := 0.
Definition GroupValueResponse : APCI := 1.
Definition GroupValueWrite : APCI := 2.
Definition IndividualAddrWrite : APCI := 3.
Definition IndividualAddrRequest : APCI := 4.
Definition IndividualAddrResponse : APCI := 5.
Definition AdcRead : APCI := 6.
Definition AdcResponse : APCI := 7.
Definition MemoryRead : APCI := 8.
Definition MemoryResponse : APCI := 9.
Definition MemoryWrite : APCI := 10.
Definition UserMessage : APCI := 11.
Definition MaskVersionRead : APCI := 12.
Definition MaskVersionResponse : APCI := 13.
Definition Restart : APCI := 14.
Definition Escape : APCI := 15.

(** The sixteen service codes the source names. *)
Definition APCI_values : list APCI :=
  [ GroupValueRead; GroupValueResponse; GroupValueWrite; IndividualAddrWrite;
    IndividualAddrRequest; IndividualAddrResponse; AdcRead; AdcResponse;
    MemoryRead; MemoryResponse; MemoryWrite; UserMessage; MaskVersionRead;
    MaskVersionResponse; Restart; Escape ].

(** The two cases of the [switch] on the packet type, as the source groups
    them. *)
Definition is_control (pt : TPCI) : bool :=
  (pt =? UnnumberedControlPacket) || (pt =? NumberedControlPacket).

Definition is_data (pt : TPCI) : bool :=
  (pt =? UnnumberedDataPacket) || (pt =? NumberedDataPacket).

(** ** The data unit *)

Record TPDU : Type := mkTPDU {
  PacketType : TPCI;
  SeqNumber : Z;
  Control : Z;
  Info : APCI;
  Data : list Z
}.

(** ** Errors *)

(** A failure reported by the underlying reader or writer, other than the
    end of the stream. *)
Inductive ioerr : Type := IoErr (code : nat).

Inductive error : Type :=
| TruncatedInput                (* the stream ended before the header byte *)
| IoFailure (e : ioerr)         (* the reader's or writer's own error *)
| ErrDataUnitTooShort           (* "Data segment of the TPDU is too short" *)
| ErrUnreachable.               (* errors.New("Unreachable") *)

(** ** The octet source *)

(** An [io.Reader]: the bytes it still delivers, and how it ends once they
    are used up, at a clean end of stream ([None]) or with an error. *)
Record Reader : Type := mkReader {
  pending : list Z;
  closing : option ioerr
}.

(** A reader over a complete frame fragment held in memory. *)
Definition NewReader (bs : list Z) : Reader := mkReader bs None.

(** Modelled from the spec: [binary.ReadSequence(r, &head)] of the package
    [knx/binary], whose source is not part of this development.  It reads
    exactly one header byte, fails with [TruncatedInput] if the source is
    exhausted before one byte is available, and hands on the reader's own
    error otherwise. *)
Definition ReadSequence (r : Reader) : Reader * (Z + error) :=
  match pending r with
  | head :: rest => (mkReader rest (closing r), inl head)
  | [] =>
      (r, inr (match closing r with
               | None => TruncatedInput
               | Some e => IoFailure e
               end))
  end.

(** [bytes.Buffer.ReadFrom] of Go's standard library, on an empty buffer:
    read until the end of the stream; return what was read and any error
    except the end of the stream. *)
Definition Buffer_ReadFrom (r : Reader) : Reader * list Z * option error :=
  (mkReader [] (closing r), pending r, option_map IoFailure (closing r)).

(** ** Decoder *)

Definition ReadFrom (r : Reader) (tpdu : TPDU) : Reader * TPDU * option error :=
  match ReadSequence r with
  | (r1, inr err) => (r1, tpdu, Some err)
  | (r1, inl head) =>
      let packetType : TPCI := Z.land (U8.shr head 6) 3 in
      let seqNumber := Z.land (U8.shr head 2) 15 in
      if is_control packetType then
        (r1, mkTPDU packetType seqNumber (Z.land head 3) 0 [], None)
      else if is_data packetType then
        match Buffer_ReadFrom r1 with
        | (r2, _, Some err) => (r2, tpdu, Some err)
        | (r2, data, None) =>
            let len := Z.of_nat (length data) in
            if len <? 1 then (r2, tpdu, Some ErrDataUnitTooShort)
            else
              let info : APCI :=
                Z.lor (U8.shl (Z.land head 3) 2)
                      (Z.land (U8.shr (nth 0 data 0) 6) 3) in
              let appData :=
                if 1 <? len then skipn 1 data
                else [Z.land (nth 0 data 0) 63] in
              (r2, mkTPDU packetType seqNumber 0 info appData, None)
        end
      else (r1, tpdu, Some ErrUnreachable)
  end.

(** ** Encoder *)

(** An [io.Writer]: [Write] takes the sink and a byte slice and gives the
    sink afterwards and the error, if any. *)
Class Writer (W : Type) : Type :=
  Write : W -> list Z -> W * option error.

(** A [bytes.Buffer] used as a sink: it grows and never fails. *)
Definition Buffer := list Z.

#[export] Instance Buffer_Writer : Writer Buffer :=
  fun b bs => (b ++ bs, None).

(** A sink that has failed and accepts nothing. *)
Record Broken : Type := mkBroken { cause : ioerr }.

#[export] Instance Broken_Writer : Writer Broken :=
  fun w _ => (w, Some (IoFailure (cause w))).

(** [buffer[1] = f(buffer[1])]; the source only does this on a slice of
    length at least two. *)
Definition update1 (f : Z -> Z) (buffer : list Z) : list Z :=
  match buffer with
  | b0 :: b1 :: rest => b0 :: f b1 :: rest
  | _ => buffer
  end.

(** The byte slice [WriteTo] builds before it writes it. *)
Definition WriteTo_buffer (tpdu : TPDU) : list Z :=
  let head :=
    Z.lor (U8.shl (U8.wrap (Z.land (PacketType tpdu) 3)) 6)
          (U8.shl (U8.wrap (Z.land (SeqNumber tpdu) 15)) 2) in
  if is_control (PacketType tpdu) then
    [Z.lor head (U8.wrap (Z.land (Control tpdu) 3))]
  else if is_data (PacketType tpdu) then
    let head := Z.lor head (Z.land (U8.wrap (U8.shr (Info tpdu) 2)) 3) in
    if 0 <? Z.of_nat (length (Data tpdu)) then
      let buffer := head :: Data tpdu in
      let buffer := update1 (fun b => Z.land b 63) buffer in
      update1 (fun b => Z.lor b (U8.shl (U8.wrap (Z.land (Info tpdu) 3)) 6))
              buffer
    else
      [head; U8.shl (U8.wrap (Z.land (Info tpdu) 3)) 6]
  else [head].

Definition WriteTo {W : Type} `{Writer W} (tpdu : TPDU) (w : W)
  : W * option error :=
  Write w (WriteTo_buffer tpdu).

(** Encode into a fresh in-memory buffer, then decode from it. *)
Definition roundtrip (tpdu into : TPDU) : Reader * TPDU * option error :=
  ReadFrom (NewReader (fst (WriteTo tpdu ([] : Buffer)))) into.

(** ** Definitions used to state and prove the properties *)

(** The three fields of the header byte, as [ReadFrom] extracts them. *)
Definition kind_bits (head : Z) : TPCI := Z.land (U8.shr head 6) 3.
Definition seq_bits (head : Z) : Z := Z.land (U8.shr head 2) 15.
Definition low_bits (head : Z) : Z := Z.land head 3.

(** Bounded exhaustive checking: [below n p] tests [p] on [0 .. n-1]. *)
Fixpoint below (n : nat) (p : Z -> bool) : bool :=
  match n with
  | O => true
  | S k => p (Z.of_nat k) && below k p
  end.

(** The five ways a run of the decoder can go, by the shape of its input. *)
Inductive decode_case (r : Reader) : Prop :=
| case_empty :
    pending r = [] -> decode_case r
| case_control head rest :
    pending r = head :: rest -> is_control (kind_bits head) = true ->
    decode_case r
| case_data_failed head rest e :
    pending r = head :: rest -> closing r = Some e ->
    is_data (kind_bits head) = true -> decode_case r
| case_data_short head :
    r = mkReader [head] None ->
    is_data (kind_bits head) = true -> decode_case r
| case_data head d0 ds :
    r = mkReader (head :: d0 :: ds) None ->
    is_data (kind_bits head) = true -> decode_case r.

(** A blank data unit for the decoder to fill. *)
Definition blank : TPDU := mkTPDU 0 0 0 0 [].

(** The data unit encoded by the bytes [0x27, 0xea]. *)
Definition escape_unit : TPDU := mkTPDU UnnumberedDataPacket 9 0 Escape [0x2a].

(** The header byte the encoder emits, given what goes into its two low
    bits, and the first byte after it when there is a payload. *)
Definition header (pt seq low : Z) : Z :=
  Z.lor (Z.lor (U8.shl (U8.wrap (Z.land pt 3)) 6)
               (U8.shl (U8.wrap (Z.land seq 15)) 2))
        low.

Definition info_high (info : APCI) : Z := Z.land (U8.wrap (U8.shr info 2)) 3.

Definition info_low (info : APCI) : Z := U8.shl (U8.wrap (Z.land info 3)) 6.

Definition continuation (d0 : Z) (info : APCI) : Z :=
  Z.lor (Z.land d0 63) (info_low info).

Definition header_ok (p s l : Z) : bool :=
  let h := Z.lor (Z.lor (U8.shl (U8.wrap p) 6) (U8.shl (U8.wrap s) 2)) l in
  (kind_bits h =? p) && (seq_bits h =? s) && (low_bits h =? l).

Definition continuation_ok (v i : Z) : bool :=
  let b := Z.lor v (U8.shl (U8.wrap i) 6) in
  (Z.land (U8.shr b 6) 3 =? i) && (Z.land b 63 =? v).

(** What the decoder leaves of a payload that went through the encoder. *)
Definition payload_back (data : list Z) : list Z :=
  match data with
  | [] => [0]
  | [d0] => [Z.land d0 63]
  | _ :: ds => ds
  end.

(** A memory response with four bytes after the continuation byte. *)
Definition memory_response : TPDU :=
  mkTPDU NumberedDataPacket 0x1d 0 MemoryResponse [0xff; 0x01; 0x02; 0x03].

(** A numbered acknowledgement. *)
Definition numbered_ack : TPDU := mkTPDU NumberedControlPacket 11 2 0 [].

(** A group-value write with a six-bit value, and a group-value read. *)
Definition group_write : TPDU :=
  mkTPDU UnnumberedDataPacket 0 0 GroupValueWrite [0x3f].

Definition group_read : TPDU :=
  mkTPDU UnnumberedDataPacket 0 0 GroupValueRead [].

(** ** Sample inputs *)

(** A reader that delivers a data-packet header and two more bytes and then
    breaks. *)
Definition broken_stream : Reader :=
  mkReader [0x43; 0x80; 0x11] (Some (IoErr 5)).

(** A data unit with every field set, to be overwritten. *)
Definition stale : TPDU := mkTPDU NumberedControlPacket 7 3 Escape [1; 2; 3].

(** ** Checks over all bytes *)

(** For a header byte [h] and a continuation byte [d0]: the fields the
    decoder takes from them, packed again as the encoder packs them, give
    the bytes back. *)
Definition frame_ok (h d0 : Z) : bool :=
  let info := Z.lor (U8.shl (low_bits h) 2) (Z.land (U8.shr d0 6) 3) in
  (header (kind_bits h) (seq_bits h) (info_high info) =? h)
  && (header (kind_bits h) (seq_bits h) (U8.wrap (Z.land (low_bits h) 3)) =? h)
  && (info_low info =? Z.land d0 192)
  && (Z.lor (Z.land (Z.land d0 63) 63) (Z.land d0 192) =? d0).

(** The encoder's two bytes written with sums instead of [|] and [<<], for
    field values within their widths. *)
Definition header_sum_ok (p s l : Z) : bool :=
  Z.lor (Z.lor (U8.shl (U8.wrap p) 6) (U8.shl (U8.wrap s) 2)) l
  =? 64 * p + 4 * s + l.

Definition continuation_sum_ok (v i : Z) : bool :=
  Z.lor v (U8.shl (U8.wrap i) 6) =? 64 * i + v.

Definition info_sum_ok (l t : Z) : bool :=
  Z.lor (U8.shl l 2) t =? 4 * l + t.



(** Two data units written one after the other into the same fresh
    [bytes.Buffer]. *)
Definition written_in_a_row (first second : TPDU) : Buffer :=
  fst (WriteTo second (fst (WriteTo first ([] : Buffer)))).

(** An acknowledgement whose sequence number and control field are wider
    than their fields on the wire, and the same with both cut to width. *)
Definition wide_ack : TPDU := mkTPDU NumberedControlPacket 31 7 0 [].

Definition narrow_ack : TPDU := mkTPDU NumberedControlPacket 15 3 0 [].

(** * Properties *)

(** ** Bit fields of a byte *)

Lemma below_spec (n : nat) (p : Z -> bool) :
  below n p = true -> forall x, 0 <= x < Z.of_nat n -> p x = true.
Proof.
  induction n as [|k IH]; intros Hb x Hx.
  - simpl in Hx. lia.
  - simpl in Hb. apply andb_true_iff in Hb as [Hk Hrest].
    destruct (Z.eq_dec x (Z.of_nat k)) as [->|Hne]; [exact Hk|].
    apply IH; [exact Hrest|lia].
Qed.

(** A mask with [2^n - 1] leaves a value below [2^n], whatever the operand. *)
Lemma mask_range (x n : Z) : 0 <= n -> 0 <= Z.land x (Z.ones n) < 2 ^ n.
Proof.
  intros Hn. rewrite Z.land_ones by exact Hn.
  apply Z.mod_pos_bound. apply Z.pow_pos_nonneg; lia.
Qed.

Lemma land3_range (x : Z) : 0 <= Z.land x 3 < 4.
Proof. exact (mask_range x 2 ltac:(lia)). Qed.

Lemma land15_range (x : Z) : 0 <= Z.land x 15 < 16.
Proof. exact (mask_range x 4 ltac:(lia)). Qed.

Lemma land63_range (x : Z) : 0 <= Z.land x 63 < 64.
Proof. exact (mask_range x 6 ltac:(lia)). Qed.

(** The packet type read from any header byte is one of the four named
    values. *)
Lemma kind_bits_cases (head : Z) :
  kind_bits head = UnnumberedDataPacket \/
  kind_bits head = NumberedDataPacket \/
  kind_bits head = UnnumberedControlPacket \/
  kind_bits head = NumberedControlPacket.
Proof.
  unfold kind_bits, UnnumberedDataPacket, NumberedDataPacket,
    UnnumberedControlPacket, NumberedControlPacket.
  pose proof (land3_range (U8.shr head 6)). lia.
Qed.

Lemma is_control_iff (pt : TPCI) :
  is_control pt = true <->
  pt = UnnumberedControlPacket \/ pt = NumberedControlPacket.
Proof.
  unfold is_control. rewrite orb_true_iff, !Z.eqb_eq. reflexivity.
Qed.

Lemma is_data_iff (pt : TPCI) :
  is_data pt = true <-> pt = UnnumberedDataPacket \/ pt = NumberedDataPacket.
Proof.
  unfold is_data. rewrite orb_true_iff, !Z.eqb_eq. reflexivity.
Qed.

Lemma is_data_not_control (pt : TPCI) :
  is_data pt = true -> is_control pt = false.
Proof.
  rewrite is_data_iff.
  unfold is_control, UnnumberedDataPacket, NumberedDataPacket,
    UnnumberedControlPacket, NumberedControlPacket.
  intros [-> | ->]; reflexivity.
Qed.

Lemma kind_bits_total (head : Z) :
  is_control (kind_bits head) = false -> is_data (kind_bits head) = true.
Proof.
  intros Hc. apply is_data_iff.
  destruct (kind_bits_cases head) as [H|[H|[H|H]]]; auto;
    rewrite H in Hc; discriminate.
Qed.

(** ** The decoder, case by case *)

Lemma ReadFrom_empty (c : option ioerr) (tpdu : TPDU) :
  ReadFrom (mkReader [] c) tpdu =
  (mkReader [] c, tpdu,
   Some (match c with None => TruncatedInput | Some e => IoFailure e end)).
Proof. reflexivity. Qed.

Lemma ReadFrom_control (head : Z) (rest : list Z) (c : option ioerr)
      (tpdu : TPDU) :
  is_control (kind_bits head) = true ->
  ReadFrom (mkReader (head :: rest) c) tpdu =
  (mkReader rest c,
   mkTPDU (kind_bits head) (seq_bits head) (low_bits head) 0 [], None).
Proof.
  intros Hc. unfold ReadFrom, ReadSequence. cbn [pending closing].
  fold (kind_bits head). rewrite Hc. reflexivity.
Qed.

Lemma ReadFrom_data_failed (head : Z) (rest : list Z) (e : ioerr)
      (tpdu : TPDU) :
  is_data (kind_bits head) = true ->
  ReadFrom (mkReader (head :: rest) (Some e)) tpdu =
  (mkReader [] (Some e), tpdu, Some (IoFailure e)).
Proof.
  intros Hd. unfold ReadFrom, ReadSequence. cbn [pending closing].
  fold (kind_bits head).
  rewrite (is_data_not_control _ Hd), Hd. reflexivity.
Qed.

Lemma ReadFrom_data_short (head : Z) (tpdu : TPDU) :
  is_data (kind_bits head) = true ->
  ReadFrom (mkReader [head] None) tpdu =
  (mkReader [] None, tpdu, Some ErrDataUnitTooShort).
Proof.
  intros Hd. unfold ReadFrom, ReadSequence. cbn [pending closing].
  fold (kind_bits head).
  rewrite (is_data_not_control _ Hd), Hd. reflexivity.
Qed.

Lemma ReadFrom_data (head d0 : Z) (ds : list Z) (tpdu : TPDU) :
  is_data (kind_bits head) = true ->
  ReadFrom (mkReader (head :: d0 :: ds) None) tpdu =
  (mkReader [] None,
   mkTPDU (kind_bits head) (seq_bits head) 0
          (Z.lor (U8.shl (low_bits head) 2) (Z.land (U8.shr d0 6) 3))
          (match ds with [] => [Z.land d0 63] | _ :: _ => ds end),
   None).
Proof.
  intros Hd. unfold ReadFrom, ReadSequence. cbn [pending closing].
  fold (kind_bits head) (seq_bits head) (low_bits head).
  rewrite (is_data_not_control _ Hd), Hd.
  unfold Buffer_ReadFrom. cbn [pending closing option_map].
  destruct ds as [|d1 ds].
  - reflexivity.
  - replace (Z.of_nat (length (d0 :: d1 :: ds)) <? 1) with false
      by (symmetry; apply Z.ltb_ge; cbn [length]; lia).
    replace (1 <? Z.of_nat (length (d0 :: d1 :: ds))) with true
      by (symmetry; apply Z.ltb_lt; cbn [length]; lia).
    reflexivity.
Qed.

(** Every input falls under one of the five cases. *)
Lemma decode_cases (r : Reader) : decode_case r.
Proof.
  destruct r as [[|head rest] c].
  - apply case_empty. reflexivity.
  - destruct (is_control (kind_bits head)) eqn:Hc.
    + eapply case_control; [reflexivity|exact Hc].
    + pose proof (kind_bits_total head Hc) as Hd.
      destruct c as [e|].
      * eapply case_data_failed; [reflexivity|reflexivity|exact Hd].
      * destruct rest as [|d0 ds].
        -- eapply case_data_short; [reflexivity|exact Hd].
        -- eapply case_data; [reflexivity|exact Hd].
Qed.

(** ** Claims about the decoder *)

(** C4 (as the specification states it, refuted): the bytes
    [0b10_0011_01, 0b01_100101], that is [0x8d, 0x65], do not decode to a
    numbered data packet with sequence number 13, service code 5 and
    payload [0b00_100101]: bits 7-6 of the first byte are [10], which is
    [UnnumberedControlPacket], and bits 5-2 are [0011]. *)
Lemma scenario_B_as_stated_fails :
  ~ (exists (r : Reader) (result : TPDU),
       ReadFrom (NewReader [0x8d; 0x65]) blank = (r, result, None)
       /\ PacketType result = NumberedDataPacket
       /\ SeqNumber result = 13
       /\ Info result = 5
       /\ Data result = [0x25]).
Proof.
  intros (r & result & Hrun & Hkind & _).
  vm_compute in Hrun. injection Hrun as _ <-.
  discriminate Hkind.
Qed.

(** C4 (amended): the header byte that carries "numbered data, sequence
    number 13, high service bits 01" is [0b01_1101_01 = 0x75]; followed by
    the continuation byte [0b01_100101 = 0x65] it decodes to service code
    [(1 << 2) | 1 = 5] and the payload [0b00_100101 = 0x25].  The bytes of
    the scenario as written, [0x8d, 0x65], decode to an unnumbered control
    packet with sequence number 3 and control 1, and the second byte stays
    unread. *)
Theorem scenario_B_decodes :
  ReadFrom (NewReader [0x75; 0x65]) blank =
    (NewReader [],
     mkTPDU NumberedDataPacket 13 0 IndividualAddrResponse [0x25],
     None)
  /\ IndividualAddrResponse = Z.lor (Z.shiftl 1 2) 1
  /\ ReadFrom (NewReader [0x8d; 0x65]) blank =
       (NewReader [0x65],
        mkTPDU UnnumberedControlPacket 3 1 0 [], None).
Proof. repeat split. Qed.

(** C8: decoding a source that is exhausted before the header byte fails
    with [TruncatedInput], and the data unit is left as it was. *)
Theorem ReadFrom_zero_length (tpdu : TPDU) :
  ReadFrom (NewReader []) tpdu = (NewReader [], tpdu, Some TruncatedInput).
Proof. exact (ReadFrom_empty None tpdu). Qed.

(** C6: when bits 7-6 of the header byte name a control packet, decoding
    succeeds with [Control] the two low bits of the header, [Info] zero and
    [Data] empty, and the reader keeps every byte after the header, however
    many there are and however the stream ends. *)
Theorem ReadFrom_control_packet (head : Z) (rest : list Z)
        (c : option ioerr) (tpdu : TPDU) :
  Z.land (Z.shiftr head 6) 3 = UnnumberedControlPacket \/
  Z.land (Z.shiftr head 6) 3 = NumberedControlPacket ->
  exists result,
    ReadFrom (mkReader (head :: rest) c) tpdu =
      (mkReader rest c, result, None)
    /\ PacketType result = Z.land (Z.shiftr head 6) 3
    /\ SeqNumber result = Z.land (Z.shiftr head 2) 15
    /\ Control result = Z.land head 3
    /\ Info result = 0
    /\ Data result = [].
Proof.
  intros Hk. apply is_control_iff in Hk.
  eexists. split; [apply ReadFrom_control; exact Hk|].
  repeat split.
Qed.

Lemma ReadFrom_control_packet_witness :
  exists result,
    ReadFrom (mkReader [0xd6; 7; 8; 9] (Some (IoErr 1))) blank =
      (mkReader [7; 8; 9] (Some (IoErr 1)), result, None)
    /\ PacketType result = Z.land (Z.shiftr 0xd6 6) 3
    /\ SeqNumber result = Z.land (Z.shiftr 0xd6 2) 15
    /\ Control result = Z.land 0xd6 3
    /\ Info result = 0
    /\ Data result = [].
Proof.
  apply (ReadFrom_control_packet 0xd6 [7; 8; 9] (Some (IoErr 1)) blank).
  right. reflexivity.
Defined.

(** C9: bits 7-6 of any header byte are one of the four packet types, so
    the return after the [switch] is never reached: no run of the decoder
    ends in the "Unreachable" error. *)
Theorem packet_kind_exhaustive :
  (forall head : Z,
      is_control (kind_bits head) || is_data (kind_bits head) = true)
  /\ (forall (r : Reader) (tpdu : TPDU),
        match snd (ReadFrom r tpdu) with
        | Some ErrUnreachable => False
        | _ => True
        end).
Proof.
  split.
  - intros head. destruct (is_control (kind_bits head)) eqn:Hc; [reflexivity|].
    exact (kind_bits_total head Hc).
  - intros r tpdu. destruct (decode_cases r) as
      [Hp | head rest Hp Hc | head rest e Hp Hcl Hd | head Hr Hd
       | head d0 ds Hr Hd].
    + destruct r as [p c]; cbn in Hp; subst p. rewrite ReadFrom_empty.
      destruct c; exact I.
    + destruct r as [p c]; cbn in Hp; subst p.
      rewrite (ReadFrom_control _ _ _ _ Hc). exact I.
    + destruct r as [p c]; cbn in Hp, Hcl; subst p c.
      rewrite (ReadFrom_data_failed _ _ _ _ Hd). exact I.
    + subst r. rewrite (ReadFrom_data_short _ _ Hd). exact I.
    + subst r. rewrite (ReadFrom_data _ _ _ _ Hd). exact I.
Qed.

(** C5: a header byte whose bits 7-6 name a data packet, followed by a clean
    end of the stream, makes the decoder fail with [ErrDataUnitTooShort];
    and whenever the decoder fails with that error, the input was exactly
    such a lone data-packet header. *)
Theorem data_unit_too_short :
  (forall (head : Z) (tpdu : TPDU),
      Z.land (Z.shiftr head 6) 3 = UnnumberedDataPacket \/
      Z.land (Z.shiftr head 6) 3 = NumberedDataPacket ->
      ReadFrom (NewReader [head]) tpdu =
        (NewReader [], tpdu, Some ErrDataUnitTooShort))
  /\ (forall (r : Reader) (tpdu : TPDU),
        snd (ReadFrom r tpdu) = Some ErrDataUnitTooShort ->
        exists head,
          r = NewReader [head]
          /\ (Z.land (Z.shiftr head 6) 3 = UnnumberedDataPacket \/
              Z.land (Z.shiftr head 6) 3 = NumberedDataPacket)).
Proof.
  split.
  - intros head tpdu Hk. apply is_data_iff in Hk.
    exact (ReadFrom_data_short head tpdu Hk).
  - intros r tpdu Herr.
    destruct (decode_cases r) as
      [Hp | head rest Hp Hc | head rest e Hp Hcl Hd | head Hr Hd
       | head d0 ds Hr Hd].
    + destruct r as [p c]; cbn in Hp; subst p.
      rewrite ReadFrom_empty in Herr. destruct c; discriminate Herr.
    + destruct r as [p c]; cbn in Hp; subst p.
      rewrite (ReadFrom_control _ _ _ _ Hc) in Herr. discriminate Herr.
    + destruct r as [p c]; cbn in Hp, Hcl; subst p c.
      rewrite (ReadFrom_data_failed _ _ _ _ Hd) in Herr. discriminate Herr.
    + exists head. split; [exact Hr|]. apply is_data_iff. exact Hd.
    + subst r. rewrite (ReadFrom_data _ _ _ _ Hd) in Herr. discriminate Herr.
Qed.

Lemma data_unit_too_short_witness :
  ReadFrom (NewReader [0x4c]) blank =
    (NewReader [], blank, Some ErrDataUnitTooShort)
  /\ exists head,
       NewReader [0x4c] = NewReader [head]
       /\ (Z.land (Z.shiftr head 6) 3 = UnnumberedDataPacket \/
           Z.land (Z.shiftr head 6) 3 = NumberedDataPacket).
Proof.
  split.
  - apply (proj1 data_unit_too_short 0x4c blank). right. reflexivity.
  - apply (proj2 data_unit_too_short (NewReader [0x4c]) blank). reflexivity.
Defined.

(** C10: whatever the input bytes, a successful decode leaves the fields the
    packet type does not use in a fixed state.  A data packet comes out with
    [Control] zero and at least one byte of [Data]; a control packet comes
    out with [Info] zero and no [Data]. *)
Theorem decoded_fields_normalised (r r' : Reader) (tpdu result : TPDU) :
  ReadFrom r tpdu = (r', result, None) ->
  (PacketType result = UnnumberedDataPacket \/
   PacketType result = NumberedDataPacket ->
   Control result = 0 /\ (1 <= length (Data result))%nat)
  /\ (PacketType result = UnnumberedControlPacket \/
      PacketType result = NumberedControlPacket ->
      Info result = 0 /\ Data result = []).
Proof.
  intros Hok.
  destruct (decode_cases r) as
    [Hp | head rest Hp Hc | head rest e Hp Hcl Hd | head Hr Hd
     | head d0 ds Hr Hd].
  - destruct r as [p c]; cbn in Hp; subst p.
    rewrite ReadFrom_empty in Hok. discriminate Hok.
  - destruct r as [p c]; cbn in Hp; subst p.
    rewrite (ReadFrom_control _ _ _ _ Hc) in Hok.
    injection Hok as _ <-. cbn [PacketType Control Info Data].
    split.
    + intros Hk. apply is_data_iff, is_data_not_control in Hk.
      rewrite Hk in Hc. discriminate Hc.
    + intros _. split; reflexivity.
  - destruct r as [p c]; cbn in Hp, Hcl; subst p c.
    rewrite (ReadFrom_data_failed _ _ _ _ Hd) in Hok. discriminate Hok.
  - subst r. rewrite (ReadFrom_data_short _ _ Hd) in Hok. discriminate Hok.
  - subst r. rewrite (ReadFrom_data _ _ _ _ Hd) in Hok.
    injection Hok as _ <-. cbn [PacketType Control Info Data].
    split.
    + intros _. split; [reflexivity|]. destruct ds; cbn [length]; lia.
    + intros Hk. apply is_control_iff in Hk.
      rewrite (is_data_not_control _ Hd) in Hk. discriminate Hk.
Qed.

Lemma decoded_fields_normalised_witness :
  (PacketType escape_unit = UnnumberedDataPacket \/
   PacketType escape_unit = NumberedDataPacket ->
   Control escape_unit = 0 /\ (1 <= length (Data escape_unit))%nat)
  /\ (PacketType escape_unit = UnnumberedControlPacket \/
      PacketType escape_unit = NumberedControlPacket ->
      Info escape_unit = 0 /\ Data escape_unit = []).
Proof.
  apply (decoded_fields_normalised
           (NewReader [0x27; 0xea]) (NewReader []) blank escape_unit).
  reflexivity.
Defined.

(** ** The encoder, case by case *)

Lemma WriteTo_buffer_control (tpdu : TPDU) :
  is_control (PacketType tpdu) = true ->
  WriteTo_buffer tpdu =
  [header (PacketType tpdu) (SeqNumber tpdu)
          (U8.wrap (Z.land (Control tpdu) 3))].
Proof. intros Hc. unfold WriteTo_buffer. rewrite Hc. reflexivity. Qed.

Lemma WriteTo_buffer_data (tpdu : TPDU) :
  is_data (PacketType tpdu) = true ->
  WriteTo_buffer tpdu =
  header (PacketType tpdu) (SeqNumber tpdu) (info_high (Info tpdu))
  :: match Data tpdu with
     | [] => [info_low (Info tpdu)]
     | d0 :: ds => continuation d0 (Info tpdu) :: ds
     end.
Proof.
  intros Hd. unfold WriteTo_buffer.
  rewrite (is_data_not_control _ Hd), Hd.
  destruct (Data tpdu) as [|d0 ds]; reflexivity.
Qed.

Lemma WriteTo_buffer_other (tpdu : TPDU) :
  is_control (PacketType tpdu) = false ->
  is_data (PacketType tpdu) = false ->
  WriteTo_buffer tpdu = [header (PacketType tpdu) (SeqNumber tpdu) 0].
Proof.
  intros Hc Hd. unfold WriteTo_buffer. rewrite Hc, Hd.
  unfold header. rewrite Z.lor_0_r. reflexivity.
Qed.

(** ** Reading back what the encoder packed *)

Lemma header_ok_all (p s l : Z) :
  0 <= p < 4 -> 0 <= s < 16 -> 0 <= l < 4 -> header_ok p s l = true.
Proof.
  intros Hp Hs Hl.
  assert (Hall : below 4 (fun p => below 16 (fun s =>
                   below 4 (fun l => header_ok p s l))) = true)
    by (vm_compute; reflexivity).
  pose proof (below_spec 4 _ Hall p Hp) as H1. cbv beta in H1.
  pose proof (below_spec 16 _ H1 s Hs) as H2. cbv beta in H2.
  exact (below_spec 4 _ H2 l Hl).
Qed.

Lemma header_fields (pt seq low : Z) :
  0 <= low < 4 ->
  kind_bits (header pt seq low) = Z.land pt 3
  /\ seq_bits (header pt seq low) = Z.land seq 15
  /\ low_bits (header pt seq low) = low.
Proof.
  intros Hl.
  pose proof (header_ok_all _ _ _ (land3_range pt) (land15_range seq) Hl) as H.
  unfold header_ok in H.
  apply andb_true_iff in H as [H Hlow].
  apply andb_true_iff in H as [Hkind Hseq].
  apply Z.eqb_eq in Hkind, Hseq, Hlow.
  unfold header. auto.
Qed.

Lemma continuation_ok_all (v i : Z) :
  0 <= v < 64 -> 0 <= i < 4 -> continuation_ok v i = true.
Proof.
  intros Hv Hi.
  assert (Hall : below 64 (fun v => below 4 (fun i => continuation_ok v i))
                 = true)
    by (vm_compute; reflexivity).
  pose proof (below_spec 64 _ Hall v Hv) as H1. cbv beta in H1.
  exact (below_spec 4 _ H1 i Hi).
Qed.

Lemma continuation_fields (d0 : Z) (info : APCI) :
  Z.land (U8.shr (continuation d0 info) 6) 3 = Z.land info 3
  /\ Z.land (continuation d0 info) 63 = Z.land d0 63.
Proof.
  pose proof (continuation_ok_all _ _ (land63_range d0) (land3_range info))
    as H.
  unfold continuation_ok in H. apply andb_true_iff in H as [Htop Hlow].
  apply Z.eqb_eq in Htop, Hlow.
  unfold continuation, info_low. auto.
Qed.

Lemma info_low_fields (info : APCI) :
  Z.land (U8.shr (info_low info) 6) 3 = Z.land info 3
  /\ Z.land (info_low info) 63 = 0.
Proof.
  pose proof (continuation_ok_all 0 _ ltac:(lia) (land3_range info)) as H.
  unfold continuation_ok in H. rewrite Z.lor_0_l in H.
  apply andb_true_iff in H as [Htop Hlow].
  apply Z.eqb_eq in Htop, Hlow.
  unfold info_low. auto.
Qed.

(** The two halves of the service code, put together again as the decoder
    does, give its low four bits. *)
Lemma info_rejoin (info : APCI) :
  Z.lor (U8.shl (info_high info) 2) (Z.land info 3) = Z.land info 15.
Proof.
  unfold info_high, U8.shl, U8.shr, U8.wrap.
  change 256 with (2 ^ 8). change 3 with (Z.ones 2). change 15 with (Z.ones 4).
  apply Z.bits_inj'. intros n Hn.
  rewrite Z.lor_spec, !Z.land_spec, Z.testbit_mod_pow2 by lia.
  rewrite Z.shiftl_spec by lia.
  rewrite !Z.testbit_ones_nonneg by lia.
  destruct (Z.ltb_spec n 2) as [Hlt|Hge].
  - rewrite (Z.testbit_neg_r _ (n - 2)) by lia.
    replace (n <? 4) with true by (symmetry; apply Z.ltb_lt; lia).
    rewrite andb_false_r, andb_true_r. reflexivity.
  - rewrite Z.land_spec, Z.testbit_mod_pow2, Z.shiftr_spec by lia.
    rewrite Z.testbit_ones_nonneg by lia.
    replace (n - 2 + 2) with n by lia.
    rewrite andb_false_r, orb_false_r.
    destruct (Z.ltb_spec n 4) as [H4|H4].
    + replace (n <? 8) with true by (symmetry; apply Z.ltb_lt; lia).
      replace (n - 2 <? 8) with true by (symmetry; apply Z.ltb_lt; lia).
      replace (n - 2 <? 2) with true by (symmetry; apply Z.ltb_lt; lia).
      destruct (Z.testbit info n); reflexivity.
    + replace (n - 2 <? 2) with false by (symmetry; apply Z.ltb_ge; lia).
      rewrite !andb_false_r. reflexivity.
Qed.

Lemma mask_small (x n : Z) :
  0 <= n -> 0 <= x < 2 ^ n -> Z.land x (Z.ones n) = x.
Proof. intros Hn Hx. rewrite Z.land_ones by exact Hn. apply Z.mod_small, Hx. Qed.

Lemma APCI_values_range (info : APCI) :
  In info APCI_values <-> 0 <= info < 16.
Proof.
  split.
  - intros H. repeat (destruct H as [<-|H]; [vm_compute; intuition discriminate|]).
    contradiction.
  - intros H. assert (Hc : info = 0 \/ info = 1 \/ info = 2 \/ info = 3 \/
                           info = 4 \/ info = 5 \/ info = 6 \/ info = 7 \/
                           info = 8 \/ info = 9 \/ info = 10 \/ info = 11 \/
                           info = 12 \/ info = 13 \/ info = 14 \/ info = 15)
      by lia.
    repeat (destruct Hc as [->|Hc]; [vm_compute; tauto|]).
    subst info. vm_compute; tauto.
Qed.

Lemma APCI_values_mask (info : APCI) :
  In info APCI_values -> Z.land info 15 = info.
Proof.
  intros H. apply APCI_values_range in H.
  exact (mask_small info 4 ltac:(lia) H).
Qed.

Lemma packet_type_mask (pt : TPCI) :
  is_control pt || is_data pt = true -> Z.land pt 3 = pt.
Proof.
  intros H. apply orb_true_iff in H.
  rewrite is_control_iff, is_data_iff in H.
  destruct H as [[->| ->]|[->| ->]]; reflexivity.
Qed.

(** Encoding any data packet into memory and decoding it again. *)
Lemma roundtrip_data (tpdu into : TPDU) :
  is_data (PacketType tpdu) = true ->
  roundtrip tpdu into =
  (NewReader [],
   mkTPDU (PacketType tpdu) (Z.land (SeqNumber tpdu) 15) 0
          (Z.land (Info tpdu) 15) (payload_back (Data tpdu)),
   None).
Proof.
  intros Hd. unfold roundtrip, WriteTo, Write, Buffer_Writer, NewReader.
  cbn [fst app]. rewrite (WriteTo_buffer_data _ Hd).
  destruct (header_fields (PacketType tpdu) (SeqNumber tpdu)
              (info_high (Info tpdu)) (land3_range _)) as (Hk & Hs & Hl).
  rewrite (packet_type_mask (PacketType tpdu)) in Hk by (rewrite Hd; apply orb_true_r).
  assert (Hd' : is_data (kind_bits (header (PacketType tpdu) (SeqNumber tpdu)
                                          (info_high (Info tpdu)))) = true)
    by (rewrite Hk; exact Hd).
  destruct (Data tpdu) as [|d0 ds].
  - rewrite (ReadFrom_data _ _ _ _ Hd'), Hk, Hs, Hl.
    destruct (info_low_fields (Info tpdu)) as [-> ->].
    rewrite info_rejoin. reflexivity.
  - rewrite (ReadFrom_data _ _ _ _ Hd'), Hk, Hs, Hl.
    destruct (continuation_fields d0 (Info tpdu)) as [-> ->].
    rewrite info_rejoin. destruct ds; reflexivity.
Qed.

(** Encoding any control packet into memory and decoding it again. *)
Lemma roundtrip_control_masked (tpdu into : TPDU) :
  is_control (PacketType tpdu) = true ->
  roundtrip tpdu into =
  (NewReader [],
   mkTPDU (PacketType tpdu) (Z.land (SeqNumber tpdu) 15)
          (Z.land (Control tpdu) 3) 0 [],
   None).
Proof.
  intros Hc. unfold roundtrip, WriteTo, Write, Buffer_Writer, NewReader.
  cbn [fst app]. rewrite (WriteTo_buffer_control _ Hc).
  pose proof (land3_range (Control tpdu)) as Hr.
  assert (Hw : U8.wrap (Z.land (Control tpdu) 3) = Z.land (Control tpdu) 3)
    by (apply Z.mod_small; lia).
  rewrite Hw.
  destruct (header_fields (PacketType tpdu) (SeqNumber tpdu)
              (Z.land (Control tpdu) 3) Hr) as (Hk & Hs & Hl).
  rewrite (packet_type_mask (PacketType tpdu)) in Hk by (rewrite Hc; reflexivity).
  rewrite ReadFrom_control by (rewrite Hk; exact Hc).
  rewrite Hk, Hs, Hl. reflexivity.
Qed.

(** ** Claims about encoding and decoding together *)

(** C1: a data packet with one of the sixteen service codes and a payload of
    two or more bytes, written to memory and read back, keeps its packet
    type, its sequence number masked to four bits and its service code; its
    payload comes back without its first byte, so the data unit read back
    is never the one that was written. *)
Theorem roundtrip_long_payload (tpdu into : TPDU) :
  PacketType tpdu = UnnumberedDataPacket \/
  PacketType tpdu = NumberedDataPacket ->
  In (Info tpdu) APCI_values ->
  (2 <= length (Data tpdu))%nat ->
  exists result,
    roundtrip tpdu into = (NewReader [], result, None)
    /\ PacketType result = PacketType tpdu
    /\ SeqNumber result = Z.land (SeqNumber tpdu) 15
    /\ Info result = Info tpdu
    /\ Data result = tl (Data tpdu)
    /\ Data result <> Data tpdu
    /\ result <> tpdu.
Proof.
  intros Hk Hinfo Hlen. apply is_data_iff in Hk.
  eexists. split; [apply roundtrip_data; exact Hk|].
  cbn [PacketType SeqNumber Info Data].
  rewrite (APCI_values_mask _ Hinfo).
  assert (Hback : payload_back (Data tpdu) = tl (Data tpdu)).
  { destruct (Data tpdu) as [|d0 [|d1 ds]]; cbn [length] in Hlen;
      [lia|lia|reflexivity]. }
  assert (Hne : payload_back (Data tpdu) <> Data tpdu).
  { rewrite Hback. intros Heq. apply (f_equal (@length Z)) in Heq.
    destruct (Data tpdu); cbn [length tl] in *; lia. }
  repeat split; auto.
  intros Heq. apply Hne. rewrite <- Heq at 2. reflexivity.
Qed.

Lemma roundtrip_long_payload_witness :
  exists result,
    roundtrip memory_response blank = (NewReader [], result, None)
    /\ PacketType result = PacketType memory_response
    /\ SeqNumber result = Z.land (SeqNumber memory_response) 15
    /\ Info result = Info memory_response
    /\ Data result = tl (Data memory_response)
    /\ Data result <> Data memory_response
    /\ result <> memory_response.
Proof.
  apply (roundtrip_long_payload memory_response blank).
  - right. reflexivity.
  - vm_compute. tauto.
  - vm_compute. lia.
Defined.

(** C2: a control packet whose sequence number fits in four bits and whose
    control field fits in two, with [Info] zero and no [Data], written to
    memory and read back, is the same data unit in every field. *)
Theorem roundtrip_control (tpdu into : TPDU) :
  PacketType tpdu = UnnumberedControlPacket \/
  PacketType tpdu = NumberedControlPacket ->
  0 <= SeqNumber tpdu < 16 ->
  0 <= Control tpdu < 4 ->
  Info tpdu = 0 ->
  Data tpdu = [] ->
  roundtrip tpdu into = (NewReader [], tpdu, None).
Proof.
  intros Hk Hseq Hctl Hinfo Hdata. apply is_control_iff in Hk.
  rewrite (roundtrip_control_masked _ _ Hk).
  change 15 with (Z.ones 4). change 3 with (Z.ones 2).
  rewrite (mask_small (SeqNumber tpdu) 4) by (simpl; lia).
  rewrite (mask_small (Control tpdu) 2) by (simpl; lia).
  destruct tpdu as [pt seq ctl info data]. cbn in Hinfo, Hdata |- *.
  subst info data. reflexivity.
Qed.

Lemma roundtrip_control_witness :
  roundtrip numbered_ack blank = (NewReader [], numbered_ack, None).
Proof.
  apply (roundtrip_control numbered_ack blank).
  - right. reflexivity.
  - vm_compute. intuition discriminate.
  - vm_compute. intuition discriminate.
  - reflexivity.
  - reflexivity.
Defined.

(** C3: a data packet with one of the sixteen service codes and at most one
    payload byte, that byte between 0 and 63, written to memory and read
    back, keeps its service code; a one-byte payload comes back as it was,
    and an empty payload comes back as the single byte 0. *)
Theorem roundtrip_short_payload (tpdu into : TPDU) :
  PacketType tpdu = UnnumberedDataPacket \/
  PacketType tpdu = NumberedDataPacket ->
  In (Info tpdu) APCI_values ->
  (length (Data tpdu) <= 1)%nat ->
  Forall (fun d => 0 <= d <= 63) (Data tpdu) ->
  exists result,
    roundtrip tpdu into = (NewReader [], result, None)
    /\ Info result = Info tpdu
    /\ (length (Data tpdu) = 1%nat -> Data result = Data tpdu)
    /\ (Data tpdu = [] -> Data result = [0]).
Proof.
  intros Hk Hinfo Hlen Hsmall. apply is_data_iff in Hk.
  eexists. split; [apply roundtrip_data; exact Hk|].
  cbn [Info Data]. rewrite (APCI_values_mask _ Hinfo).
  split; [reflexivity|].
  destruct (Data tpdu) as [|d0 [|d1 ds]]; cbn [length] in Hlen.
  - split; [discriminate|reflexivity].
  - split; [|discriminate]. intros _.
    apply Forall_inv in Hsmall. cbn [payload_back].
    change 63 with (Z.ones 6).
    rewrite (mask_small d0 6) by (simpl; change (Z.ones 6) with 63 in *; lia).
    reflexivity.
  - lia.
Qed.

Lemma roundtrip_short_payload_witness :
  (exists result,
      roundtrip group_write blank = (NewReader [], result, None)
      /\ Info result = Info group_write
      /\ (length (Data group_write) = 1%nat -> Data result = Data group_write)
      /\ (Data group_write = [] -> Data result = [0]))
  /\ (exists result,
        roundtrip group_read blank = (NewReader [], result, None)
        /\ Info result = Info group_read
        /\ (length (Data group_read) = 1%nat -> Data result = Data group_read)
        /\ (Data group_read = [] -> Data result = [0])).
Proof.
  split.
  - apply (roundtrip_short_payload group_write blank).
    + left. reflexivity.
    + vm_compute. tauto.
    + vm_compute. lia.
    + repeat constructor; vm_compute; discriminate.
  - apply (roundtrip_short_payload group_read blank).
    + left. reflexivity.
    + vm_compute. tauto.
    + vm_compute. lia.
    + constructor.
Defined.

(** ** What the encoder reads of a data unit, and failing sinks *)

(** The encoder reads the sequence number only through its low four bits
    and the control field only through its low two. *)
Lemma WriteTo_buffer_masked (tpdu : TPDU) :
  WriteTo_buffer tpdu =
  WriteTo_buffer (mkTPDU (PacketType tpdu) (Z.land (SeqNumber tpdu) 15)
                         (Z.land (Control tpdu) 3) (Info tpdu) (Data tpdu)).
Proof.
  unfold WriteTo_buffer. cbn [PacketType SeqNumber Control Info Data].
  change 15 with (Z.ones 4). change 3 with (Z.ones 2).
  rewrite <- !Z.land_assoc, !Z.land_diag. reflexivity.
Qed.

(** Writing to a sink that has failed gives the sink's error, whatever the
    data unit. *)
Lemma WriteTo_broken (tpdu : TPDU) (w : Broken) :
  WriteTo tpdu w = (w, Some (IoFailure (cause w))).
Proof. reflexivity. Qed.

(** ** Field widths of a decoded data unit *)

Lemma info_width (low top : Z) :
  0 <= low < 4 -> 0 <= top < 4 -> 0 <= Z.lor (U8.shl low 2) top < 16.
Proof.
  intros Hl Ht.
  assert (Hall : below 4 (fun l => below 4 (fun t =>
            (0 <=? Z.lor (U8.shl l 2) t) && (Z.lor (U8.shl l 2) t <? 16)))
          = true) by (vm_compute; reflexivity).
  pose proof (below_spec 4 _ Hall low Hl) as H1. cbv beta in H1.
  pose proof (below_spec 4 _ H1 top Ht) as H2. cbv beta in H2.
  apply andb_true_iff in H2 as [Hlo Hhi].
  apply Z.leb_le in Hlo. apply Z.ltb_lt in Hhi. lia.
Qed.

(** X6: whatever bytes come in, the decoded packet type and control field
    fit in two bits and the sequence number in four, and the decoded service
    code is one of the sixteen named values. *)
Lemma ReadFrom_widths (r r' : Reader) (tpdu result : TPDU) :
  ReadFrom r tpdu = (r', result, None) ->
  0 <= PacketType result < 4
  /\ 0 <= SeqNumber result < 16
  /\ 0 <= Control result < 4
  /\ In (Info result) APCI_values.
Proof.
  intros Hok. rewrite APCI_values_range.
  destruct (decode_cases r) as
    [Hp | head rest Hp Hc | head rest e Hp Hcl Hd | head Hr Hd
     | head d0 ds Hr Hd].
  - destruct r as [p c]; cbn in Hp; subst p.
    rewrite ReadFrom_empty in Hok. discriminate Hok.
  - destruct r as [p c]; cbn in Hp; subst p.
    rewrite (ReadFrom_control _ _ _ _ Hc) in Hok.
    injection Hok as _ <-. cbn [PacketType SeqNumber Control Info].
    pose proof (land3_range (U8.shr head 6)).
    pose proof (land15_range (U8.shr head 2)).
    pose proof (land3_range head).
    unfold kind_bits, seq_bits, low_bits. lia.
  - destruct r as [p c]; cbn in Hp, Hcl; subst p c.
    rewrite (ReadFrom_data_failed _ _ _ _ Hd) in Hok. discriminate Hok.
  - subst r. rewrite (ReadFrom_data_short _ _ Hd) in Hok. discriminate Hok.
  - subst r. rewrite (ReadFrom_data _ _ _ _ Hd) in Hok.
    injection Hok as _ <-. cbn [PacketType SeqNumber Control Info].
    pose proof (land3_range (U8.shr head 6)).
    pose proof (land15_range (U8.shr head 2)).
    pose proof (info_width _ _ (land3_range head) (land3_range (U8.shr d0 6))).
    unfold kind_bits, seq_bits, low_bits in *. lia.
Qed.

(** ** The model stays within [uint8] *)

Lemma header_valid (pt seq low : Z) :
  0 <= low < 4 -> U8.valid (header pt seq low).
Proof.
  intros Hl. unfold U8.valid, header.
  assert (Hall : below 4 (fun p => below 16 (fun s => below 4 (fun l =>
            let h := Z.lor (Z.lor (U8.shl (U8.wrap p) 6)
                                  (U8.shl (U8.wrap s) 2)) l in
            (0 <=? h) && (h <? 256)))) = true) by (vm_compute; reflexivity).
  pose proof (below_spec 4 _ Hall _ (land3_range pt)) as H1. cbv beta in H1.
  pose proof (below_spec 16 _ H1 _ (land15_range seq)) as H2. cbv beta in H2.
  pose proof (below_spec 4 _ H2 low Hl) as H3. cbv beta zeta in H3.
  apply andb_true_iff in H3 as [Hlo Hhi].
  apply Z.leb_le in Hlo. apply Z.ltb_lt in Hhi. lia.
Qed.

Lemma continuation_valid (d0 : Z) (info : APCI) :
  U8.valid (continuation d0 info).
Proof.
  unfold U8.valid, continuation, info_low.
  assert (Hall : below 64 (fun v => below 4 (fun i =>
            let b := Z.lor v (U8.shl (U8.wrap i) 6) in
            (0 <=? b) && (b <? 256))) = true) by (vm_compute; reflexivity).
  pose proof (below_spec 64 _ Hall _ (land63_range d0)) as H1. cbv beta in H1.
  pose proof (below_spec 4 _ H1 _ (land3_range info)) as H2.
  cbv beta zeta in H2.
  apply andb_true_iff in H2 as [Hlo Hhi].
  apply Z.leb_le in Hlo. apply Z.ltb_lt in Hhi. lia.
Qed.

(** The encoder emits bytes, provided the payload consists of bytes. *)
Lemma WriteTo_buffer_valid (tpdu : TPDU) :
  Forall U8.valid (Data tpdu) -> Forall U8.valid (WriteTo_buffer tpdu).
Proof.
  intros Hdata.
  destruct (is_control (PacketType tpdu)) eqn:Hc.
  - rewrite (WriteTo_buffer_control _ Hc). constructor; [|constructor].
    apply header_valid. pose proof (land3_range (Control tpdu)) as Hr.
    unfold U8.wrap. rewrite Z.mod_small; lia.
  - destruct (is_data (PacketType tpdu)) eqn:Hd.
    + rewrite (WriteTo_buffer_data _ Hd). constructor.
      * apply header_valid, land3_range.
      * destruct (Data tpdu) as [|d0 ds].
        -- constructor; [|constructor].
           pose proof (continuation_valid 0 (Info tpdu)) as Hv.
           unfold continuation in Hv. rewrite Z.lor_0_l in Hv. exact Hv.
        -- constructor; [apply continuation_valid|].
           exact (Forall_inv_tail Hdata).
    + rewrite (WriteTo_buffer_other _ Hc Hd). constructor; [|constructor].
      apply header_valid. lia.
Qed.

(** The decoder hands on bytes as payload when it is given bytes. *)
Lemma ReadFrom_valid (r r' : Reader) (tpdu result : TPDU) :
  Forall U8.valid (pending r) ->
  ReadFrom r tpdu = (r', result, None) ->
  Forall U8.valid (Data result).
Proof.
  intros Hbytes Hok.
  destruct (decode_cases r) as
    [Hp | head rest Hp Hc | head rest e Hp Hcl Hd | head Hr Hd
     | head d0 ds Hr Hd].
  - destruct r as [p c]; cbn in Hp; subst p.
    rewrite ReadFrom_empty in Hok. discriminate Hok.
  - destruct r as [p c]; cbn in Hp; subst p.
    rewrite (ReadFrom_control _ _ _ _ Hc) in Hok.
    injection Hok as _ <-. constructor.
  - destruct r as [p c]; cbn in Hp, Hcl; subst p c.
    rewrite (ReadFrom_data_failed _ _ _ _ Hd) in Hok. discriminate Hok.
  - subst r. rewrite (ReadFrom_data_short _ _ Hd) in Hok. discriminate Hok.
  - subst r. rewrite (ReadFrom_data _ _ _ _ Hd) in Hok.
    injection Hok as _ <-. cbn [Data pending] in *.
    apply Forall_inv_tail in Hbytes.
    destruct ds as [|d1 ds].
    + constructor; [|constructor].
      pose proof (land63_range d0). unfold U8.valid. lia.
    + exact (Forall_inv_tail Hbytes).
Qed.

(** * Further properties of the decoder *)

(** X1: a run of the decoder that returns an error has not touched the data
    unit: every error return of [ReadFrom] comes before the first field is
    assigned. *)
Theorem ReadFrom_error_keeps_tpdu (r r' : Reader) (tpdu result : TPDU)
        (err : error) :
  ReadFrom r tpdu = (r', result, Some err) -> result = tpdu.
Proof.
  intros Hrun.
  destruct (decode_cases r) as
    [Hp | head rest Hp Hc | head rest e Hp Hcl Hd | head Hr Hd
     | head d0 ds Hr Hd].
  - destruct r as [p c]; cbn in Hp; subst p.
    rewrite ReadFrom_empty in Hrun. injection Hrun as _ <- _. reflexivity.
  - destruct r as [p c]; cbn in Hp; subst p.
    rewrite (ReadFrom_control _ _ _ _ Hc) in Hrun. discriminate Hrun.
  - destruct r as [p c]; cbn in Hp, Hcl; subst p c.
    rewrite (ReadFrom_data_failed _ _ _ _ Hd) in Hrun.
    injection Hrun as _ <- _. reflexivity.
  - subst r. rewrite (ReadFrom_data_short _ _ Hd) in Hrun.
    injection Hrun as _ <- _. reflexivity.
  - subst r. rewrite (ReadFrom_data _ _ _ _ Hd) in Hrun. discriminate Hrun.
Qed.

Lemma ReadFrom_error_keeps_tpdu_witness : stale = stale.
Proof.
  apply (ReadFrom_error_keeps_tpdu broken_stream (mkReader [] (Some (IoErr 5)))
           stale stale (IoFailure (IoErr 5))).
  reflexivity.
Defined.

(** X2: a successful run of the decoder assigns all five fields: what it
    returns, and the reader it leaves, do not depend on what the data unit
    held before. *)
Theorem ReadFrom_overwrites (r r' : Reader) (before other result : TPDU) :
  ReadFrom r before = (r', result, None) ->
  ReadFrom r other = (r', result, None).
Proof.
  intros Hrun.
  destruct (decode_cases r) as
    [Hp | head rest Hp Hc | head rest e Hp Hcl Hd | head Hr Hd
     | head d0 ds Hr Hd].
  - destruct r as [p c]; cbn in Hp; subst p.
    rewrite ReadFrom_empty in Hrun. discriminate Hrun.
  - destruct r as [p c]; cbn in Hp; subst p.
    rewrite (ReadFrom_control _ _ _ _ Hc) in Hrun.
    rewrite (ReadFrom_control _ _ _ _ Hc). exact Hrun.
  - destruct r as [p c]; cbn in Hp, Hcl; subst p c.
    rewrite (ReadFrom_data_failed _ _ _ _ Hd) in Hrun. discriminate Hrun.
  - subst r. rewrite (ReadFrom_data_short _ _ Hd) in Hrun. discriminate Hrun.
  - subst r. rewrite (ReadFrom_data _ _ _ _ Hd) in Hrun.
    rewrite (ReadFrom_data _ _ _ _ Hd). exact Hrun.
Qed.

Lemma ReadFrom_overwrites_witness :
  ReadFrom (NewReader [0x27; 0xea]) stale = (NewReader [], escape_unit, None).
Proof.
  apply (ReadFrom_overwrites (NewReader [0x27; 0xea]) (NewReader [])
           blank stale escape_unit).
  reflexivity.
Defined.

(** X3: the decoder succeeds exactly when there is a header byte and either
    its bits 7-6 name a control packet, or at least one more byte follows
    and the stream then ends without an error. *)
Theorem ReadFrom_succeeds_iff (r : Reader) (tpdu : TPDU) :
  snd (ReadFrom r tpdu) = None <->
  exists head rest,
    pending r = head :: rest
    /\ ((Z.land (Z.shiftr head 6) 3 = UnnumberedControlPacket \/
         Z.land (Z.shiftr head 6) 3 = NumberedControlPacket)
        \/ (rest <> [] /\ closing r = None)).
Proof.
  split.
  - intros Hrun.
    destruct (decode_cases r) as
      [Hp | head rest Hp Hc | head rest e Hp Hcl Hd | head Hr Hd
       | head d0 ds Hr Hd].
    + destruct r as [p c]; cbn in Hp; subst p.
      rewrite ReadFrom_empty in Hrun. discriminate Hrun.
    + exists head, rest. split; [exact Hp|]. left.
      apply is_control_iff. exact Hc.
    + destruct r as [p c]; cbn in Hp, Hcl; subst p c.
      rewrite (ReadFrom_data_failed _ _ _ _ Hd) in Hrun. discriminate Hrun.
    + subst r. rewrite (ReadFrom_data_short _ _ Hd) in Hrun.
      discriminate Hrun.
    + subst r. exists head, (d0 :: ds). split; [reflexivity|]. right.
      split; [discriminate|reflexivity].
  - intros (head & rest & Hp & Hcase).
    destruct r as [p c]; cbn in Hp; subst p.
    destruct (is_control (kind_bits head)) eqn:Hc.
    + rewrite (ReadFrom_control _ _ _ _ Hc). reflexivity.
    + pose proof (kind_bits_total head Hc) as Hd.
      destruct Hcase as [Hk | [Hrest Hcl]].
      * apply is_control_iff in Hk. unfold kind_bits, U8.shr in Hc.
        rewrite Hk in Hc. discriminate Hc.
      * cbn in Hcl. subst c. destruct rest as [|d0 ds]; [contradiction|].
        rewrite (ReadFrom_data _ _ _ _ Hd). reflexivity.
Qed.

Lemma ReadFrom_succeeds_iff_witness :
  snd (ReadFrom (NewReader [0x27; 0xea]) blank) = None.
Proof.
  apply (proj2 (ReadFrom_succeeds_iff (NewReader [0x27; 0xea]) blank)).
  exists 0x27, [0xea]. split; [reflexivity|]. right.
  split; [discriminate|reflexivity].
Defined.

(** X4: when the header names a data packet and the source fails while the
    rest is read, the decoder returns the source's error and drops the bytes
    that did arrive; and an I/O error from a data-packet input is always the
    one the source ended with. *)
Theorem ReadFrom_data_io_failure (head : Z) (rest : list Z)
        (c : option ioerr) (tpdu : TPDU) :
  Z.land (Z.shiftr head 6) 3 = UnnumberedDataPacket \/
  Z.land (Z.shiftr head 6) 3 = NumberedDataPacket ->
  (forall e, c = Some e ->
     ReadFrom (mkReader (head :: rest) c) tpdu =
       (mkReader [] c, tpdu, Some (IoFailure e)))
  /\ (forall e,
        snd (ReadFrom (mkReader (head :: rest) c) tpdu) = Some (IoFailure e) ->
        c = Some e).
Proof.
  intros Hk. apply is_data_iff in Hk. fold (U8.shr head 6) in Hk.
  fold (kind_bits head) in Hk. split.
  - intros e ->. exact (ReadFrom_data_failed head rest e tpdu Hk).
  - intros e Herr. destruct c as [e'|].
    + rewrite (ReadFrom_data_failed _ _ _ _ Hk) in Herr.
      injection Herr as ->. reflexivity.
    + destruct rest as [|d0 ds].
      * rewrite (ReadFrom_data_short _ _ Hk) in Herr. discriminate Herr.
      * rewrite (ReadFrom_data _ _ _ _ Hk) in Herr. discriminate Herr.
Qed.

Lemma ReadFrom_data_io_failure_witness :
  ReadFrom broken_stream stale =
    (mkReader [] (Some (IoErr 5)), stale, Some (IoFailure (IoErr 5))).
Proof.
  apply (proj1 (ReadFrom_data_io_failure 0x43 [0x80; 0x11] (Some (IoErr 5))
                  stale (or_intror eq_refl)) (IoErr 5)).
  reflexivity.
Defined.

(** X5: in a data packet with two or more bytes after the header, the
    payload is everything after the first of them, and of that first byte
    only bits 7-6 count: two inputs that differ in its low six bits decode
    alike. *)
Theorem ReadFrom_long_ignores_padding (head d0 d0' d1 : Z) (ds : list Z)
        (tpdu : TPDU) :
  Z.land (Z.shiftr head 6) 3 = UnnumberedDataPacket \/
  Z.land (Z.shiftr head 6) 3 = NumberedDataPacket ->
  Z.land (Z.shiftr d0 6) 3 = Z.land (Z.shiftr d0' 6) 3 ->
  ReadFrom (NewReader (head :: d0 :: d1 :: ds)) tpdu =
  ReadFrom (NewReader (head :: d0' :: d1 :: ds)) tpdu
  /\ exists result,
       ReadFrom (NewReader (head :: d0 :: d1 :: ds)) tpdu =
         (NewReader [], result, None)
       /\ Data result = d1 :: ds.
Proof.
  intros Hk Htop. apply is_data_iff in Hk. fold (U8.shr head 6) in Hk.
  fold (kind_bits head) in Hk. unfold NewReader.
  rewrite !(ReadFrom_data _ _ _ _ Hk). unfold U8.shr. rewrite Htop.
  split; [reflexivity|]. eexists. split; reflexivity.
Qed.

Lemma ReadFrom_long_ignores_padding_witness :
  ReadFrom (NewReader [0x01; 0xff; 0xab; 0xcd]) blank =
  ReadFrom (NewReader [0x01; 0xc0; 0xab; 0xcd]) blank
  /\ exists result,
       ReadFrom (NewReader [0x01; 0xff; 0xab; 0xcd]) blank =
         (NewReader [], result, None)
       /\ Data result = [0xab; 0xcd].
Proof.
  apply (ReadFrom_long_ignores_padding 0x01 0xff 0xc0 0xab [0xcd] blank).
  - left. reflexivity.
  - reflexivity.
Defined.

Lemma ReadFrom_widths_witness :
  0 <= PacketType escape_unit < 4
  /\ 0 <= SeqNumber escape_unit < 16
  /\ 0 <= Control escape_unit < 4
  /\ In (Info escape_unit) APCI_values.
Proof.
  apply (ReadFrom_widths (NewReader [0x27; 0xea]) (NewReader []) blank
           escape_unit).
  reflexivity.
Defined.

(** * From the wire and back to the wire *)

Lemma frame_ok_all (h d0 : Z) :
  U8.valid h -> U8.valid d0 -> frame_ok h d0 = true.
Proof.
  intros Hh Hd.
  assert (Hall : below 256 (fun h => below 256 (fun d0 => frame_ok h d0))
                 = true) by (vm_compute; reflexivity).
  pose proof (below_spec 256 _ Hall h Hh) as H1. cbv beta in H1.
  exact (below_spec 256 _ H1 d0 Hd).
Qed.

Lemma frame_fields (h d0 : Z) :
  U8.valid h -> U8.valid d0 ->
  let info := Z.lor (U8.shl (low_bits h) 2) (Z.land (U8.shr d0 6) 3) in
  header (kind_bits h) (seq_bits h) (info_high info) = h
  /\ header (kind_bits h) (seq_bits h) (U8.wrap (Z.land (low_bits h) 3)) = h
  /\ info_low info = Z.land d0 192
  /\ continuation (Z.land d0 63) info = d0.
Proof.
  intros Hh Hd info. pose proof (frame_ok_all h d0 Hh Hd) as H.
  unfold frame_ok in H. fold info in H.
  apply andb_true_iff in H as [H H4].
  apply andb_true_iff in H as [H H3].
  apply andb_true_iff in H as [H1 H2].
  apply Z.eqb_eq in H1, H2, H3, H4.
  unfold continuation. rewrite H3. auto.
Qed.

(** X7: decoding and encoding again gives back the bytes of a short frame.
    For a header byte that names a control packet the encoder writes that
    byte again, whatever followed it; for a data-packet header with exactly
    one byte after it the encoder writes those two bytes again. *)
Theorem reencode_short_frame (head d0 : Z) (rest : list Z)
        (c : option ioerr) (into : TPDU) :
  U8.valid head -> U8.valid d0 ->
  (Z.land (Z.shiftr head 6) 3 = UnnumberedControlPacket \/
   Z.land (Z.shiftr head 6) 3 = NumberedControlPacket ->
   exists result,
     ReadFrom (mkReader (head :: rest) c) into = (mkReader rest c, result, None)
     /\ WriteTo_buffer result = [head])
  /\ (Z.land (Z.shiftr head 6) 3 = UnnumberedDataPacket \/
      Z.land (Z.shiftr head 6) 3 = NumberedDataPacket ->
      exists result,
        ReadFrom (NewReader [head; d0]) into = (NewReader [], result, None)
        /\ WriteTo_buffer result = [head; d0]).
Proof.
  intros Hh Hd0.
  destruct (frame_fields head d0 Hh Hd0) as (Hdata & Hctl & _ & Hcont).
  split; intros Hk.
  - apply is_control_iff in Hk. fold (U8.shr head 6) in Hk.
    fold (kind_bits head) in Hk.
    eexists. split; [exact (ReadFrom_control head rest c into Hk)|].
    rewrite WriteTo_buffer_control by exact Hk.
    cbn [PacketType SeqNumber Control]. rewrite Hctl. reflexivity.
  - apply is_data_iff in Hk. fold (U8.shr head 6) in Hk.
    fold (kind_bits head) in Hk.
    eexists. split; [exact (ReadFrom_data head d0 [] into Hk)|].
    rewrite WriteTo_buffer_data by exact Hk.
    cbn [PacketType SeqNumber Info Data]. rewrite Hdata, Hcont. reflexivity.
Qed.

Lemma reencode_short_frame_witness :
  (exists result,
      ReadFrom (mkReader [0xd6; 7; 8] None) blank =
        (mkReader [7; 8] None, result, None)
      /\ WriteTo_buffer result = [0xd6])
  /\ (exists result,
        ReadFrom (NewReader [0x27; 0xea]) blank = (NewReader [], result, None)
        /\ WriteTo_buffer result = [0x27; 0xea]).
Proof.
  split.
  - apply (proj1 (reencode_short_frame 0xd6 0 [7; 8] None blank
                    ltac:(unfold U8.valid; lia) ltac:(unfold U8.valid; lia))).
    right. reflexivity.
  - apply (proj2 (reencode_short_frame 0x27 0xea [] None blank
                    ltac:(unfold U8.valid; lia) ltac:(unfold U8.valid; lia))).
    left. reflexivity.
Defined.

(** X8: a data frame with two or more bytes after the header does not come
    back: decoded and encoded again it is one byte shorter.  The header is
    kept, the first payload byte takes the place of the continuation byte,
    with bits 7-6 of the old continuation byte over its own, and the rest
    follows. *)
Theorem reencode_long_frame (head d0 d1 : Z) (ds : list Z) (into : TPDU) :
  U8.valid head -> U8.valid d0 ->
  Z.land (Z.shiftr head 6) 3 = UnnumberedDataPacket \/
  Z.land (Z.shiftr head 6) 3 = NumberedDataPacket ->
  exists result,
    ReadFrom (NewReader (head :: d0 :: d1 :: ds)) into =
      (NewReader [], result, None)
    /\ WriteTo_buffer result =
         head :: Z.lor (Z.land d1 63) (Z.land d0 192) :: ds
    /\ S (length (WriteTo_buffer result)) = length (head :: d0 :: d1 :: ds).
Proof.
  intros Hh Hd0 Hk.
  destruct (frame_fields head d0 Hh Hd0) as (Hdata & _ & Hlow & _).
  apply is_data_iff in Hk. fold (U8.shr head 6) in Hk.
  fold (kind_bits head) in Hk.
  eexists. split; [exact (ReadFrom_data head d0 (d1 :: ds) into Hk)|].
  rewrite WriteTo_buffer_data by exact Hk.
  cbn [PacketType SeqNumber Info Data]. unfold continuation.
  rewrite Hdata, Hlow. split; reflexivity.
Qed.

Lemma reencode_long_frame_witness :
  exists result,
    ReadFrom (NewReader [0x01; 0xc5; 0xab; 0xcd]) blank =
      (NewReader [], result, None)
    /\ WriteTo_buffer result =
         [0x01; Z.lor (Z.land 0xab 63) (Z.land 0xc5 192); 0xcd]
    /\ S (length (WriteTo_buffer result)) =
       length [0x01; 0xc5; 0xab; 0xcd].
Proof.
  apply (reencode_long_frame 0x01 0xc5 0xab [0xcd] blank).
  - unfold U8.valid. lia.
  - unfold U8.valid. lia.
  - left. reflexivity.
Defined.

Lemma land15_idem (x : Z) : Z.land (Z.land x 15) 15 = Z.land x 15.
Proof. rewrite <- Z.land_assoc. reflexivity. Qed.

Lemma land3_idem (x : Z) : Z.land (Z.land x 3) 3 = Z.land x 3.
Proof. rewrite <- Z.land_assoc. reflexivity. Qed.

Lemma land63_idem (x : Z) : Z.land (Z.land x 63) 63 = Z.land x 63.
Proof. rewrite <- Z.land_assoc. reflexivity. Qed.

(** X9: a data unit decoded from a control frame, or from a data frame of
    exactly two bytes, is one the encoder and decoder reproduce exactly. *)
Theorem decoded_roundtrip_fixed (r r' : Reader) (into result again : TPDU) :
  ReadFrom r into = (r', result, None) ->
  PacketType result = UnnumberedControlPacket \/
  PacketType result = NumberedControlPacket \/
  length (pending r) = 2%nat ->
  roundtrip result again = (NewReader [], result, None).
Proof.
  intros Hrun Hshape.
  destruct (decode_cases r) as
    [Hp | head rest Hp Hc | head rest e Hp Hcl Hd | head Hr Hd
     | head d0 ds Hr Hd].
  - destruct r as [p c]; cbn in Hp; subst p.
    rewrite ReadFrom_empty in Hrun. discriminate Hrun.
  - destruct r as [p c]; cbn in Hp; subst p.
    rewrite (ReadFrom_control _ _ _ _ Hc) in Hrun.
    injection Hrun as _ <-.
    rewrite roundtrip_control_masked by exact Hc.
    cbn [PacketType SeqNumber Control]. unfold seq_bits, low_bits.
    rewrite land15_idem, land3_idem. reflexivity.
  - destruct r as [p c]; cbn in Hp, Hcl; subst p c.
    rewrite (ReadFrom_data_failed _ _ _ _ Hd) in Hrun. discriminate Hrun.
  - subst r. rewrite (ReadFrom_data_short _ _ Hd) in Hrun. discriminate Hrun.
  - subst r. rewrite (ReadFrom_data _ _ _ _ Hd) in Hrun.
    injection Hrun as _ <-. cbn [PacketType pending length] in Hshape.
    assert (Hds : ds = []).
    { destruct Hshape as [Hk|[Hk|Hlen]].
      - pose proof (is_data_not_control _ Hd) as Hn.
        rewrite Hk in Hn. discriminate Hn.
      - pose proof (is_data_not_control _ Hd) as Hn.
        rewrite Hk in Hn. discriminate Hn.
      - destruct ds; [reflexivity|discriminate Hlen]. }
    subst ds. rewrite roundtrip_data by exact Hd.
    cbn [PacketType SeqNumber Info Data payload_back]. unfold seq_bits.
    rewrite land15_idem, land63_idem.
    pose proof (info_width _ _ (land3_range head) (land3_range (U8.shr d0 6)))
      as Hinfo.
    apply (mask_small _ 4 ltac:(lia)) in Hinfo.
    change (Z.ones 4) with 15 in Hinfo. unfold low_bits. rewrite Hinfo.
    reflexivity.
Qed.

Lemma decoded_roundtrip_fixed_witness :
  roundtrip escape_unit stale = (NewReader [], escape_unit, None).
Proof.
  apply (decoded_roundtrip_fixed (NewReader [0x27; 0xea]) (NewReader [])
           blank escape_unit stale).
  - reflexivity.
  - right. right. reflexivity.
Defined.

(** * Further properties of the encoder *)

(** X10: the encoder writes one byte for a control packet and for a packet
    type it does not know, and for a data packet the header, one
    continuation byte, and the payload bytes after the first. *)
Theorem WriteTo_buffer_length (tpdu : TPDU) :
  length (WriteTo_buffer tpdu) =
  if is_data (PacketType tpdu)
  then S (Nat.max 1 (length (Data tpdu)))
  else 1%nat.
Proof.
  destruct (is_data (PacketType tpdu)) eqn:Hd.
  - rewrite (WriteTo_buffer_data _ Hd).
    destruct (Data tpdu) as [|d0 ds]; cbn [length]; [reflexivity|].
    destruct (length ds); reflexivity.
  - destruct (is_control (PacketType tpdu)) eqn:Hc.
    + rewrite (WriteTo_buffer_control _ Hc). reflexivity.
    + rewrite (WriteTo_buffer_other _ Hc Hd). reflexivity.
Qed.



(** The encoder reads the service code only through its low four bits. *)
Lemma info_high_mask (info : APCI) :
  info_high (Z.land info 15) = info_high info.
Proof.
  unfold info_high, U8.wrap, U8.shr.
  change 256 with (2 ^ 8). change 3 with (Z.ones 2). change 15 with (Z.ones 4).
  apply Z.bits_inj'. intros n Hn.
  rewrite !Z.land_spec, !Z.testbit_mod_pow2, !Z.shiftr_spec by lia.
  rewrite Z.land_spec, !Z.testbit_ones_nonneg by lia.
  destruct (Z.ltb_spec n 2) as [Hlt|Hge].
  - replace (n + 2 <? 4) with true by (symmetry; apply Z.ltb_lt; lia).
    rewrite !andb_true_r. reflexivity.
  - rewrite !andb_false_r. reflexivity.
Qed.

Lemma info_low_mask (info : APCI) :
  info_low (Z.land info 15) = info_low info.
Proof.
  unfold info_low. rewrite <- Z.land_assoc. reflexivity.
Qed.

(** X12: the fields a packet type does not use never reach the wire.  A
    control packet is written the same whatever its service code and
    payload; a data packet is written the same whatever its control field,
    and its service code counts only through its low four bits. *)
Theorem WriteTo_inactive_fields (pt : TPCI) (seq : Z) :
  (pt = UnnumberedControlPacket \/ pt = NumberedControlPacket ->
   forall (ctl : Z) (info info' : APCI) (data data' : list Z),
     WriteTo_buffer (mkTPDU pt seq ctl info data) =
     WriteTo_buffer (mkTPDU pt seq ctl info' data'))
  /\ (pt = UnnumberedDataPacket \/ pt = NumberedDataPacket ->
      forall (ctl ctl' : Z) (info info' : APCI) (data : list Z),
        Z.land info 15 = Z.land info' 15 ->
        WriteTo_buffer (mkTPDU pt seq ctl info data) =
        WriteTo_buffer (mkTPDU pt seq ctl' info' data)).
Proof.
  split; intros Hk.
  - apply is_control_iff in Hk. intros ctl info info' data data'.
    rewrite !WriteTo_buffer_control by exact Hk. reflexivity.
  - apply is_data_iff in Hk. intros ctl ctl' info info' data Hinfo.
    rewrite !WriteTo_buffer_data by exact Hk.
    cbn [PacketType SeqNumber Info Data]. unfold continuation.
    rewrite <- (info_high_mask info), <- (info_low_mask info), Hinfo.
    rewrite info_high_mask, info_low_mask. reflexivity.
Qed.

Lemma WriteTo_inactive_fields_witness :
  WriteTo_buffer (mkTPDU NumberedControlPacket 5 1 MemoryRead [9; 9]) =
  WriteTo_buffer (mkTPDU NumberedControlPacket 5 1 0 [])
  /\ WriteTo_buffer (mkTPDU NumberedDataPacket 5 0 GroupValueWrite [1; 2]) =
     WriteTo_buffer (mkTPDU NumberedDataPacket 5 3 0xf2 [1; 2]).
Proof.
  split.
  - apply (proj1 (WriteTo_inactive_fields NumberedControlPacket 5)).
    right. reflexivity.
  - apply (proj2 (WriteTo_inactive_fields NumberedDataPacket 5)).
    + right. reflexivity.
    + reflexivity.
Defined.



(** * The wire layout in arithmetic *)

Lemma land3_mod (x : Z) : Z.land x 3 = x mod 4.
Proof. exact (Z.land_ones x 2 ltac:(lia)). Qed.

Lemma land15_mod (x : Z) : Z.land x 15 = x mod 16.
Proof. exact (Z.land_ones x 4 ltac:(lia)). Qed.

Lemma land63_mod (x : Z) : Z.land x 63 = x mod 64.
Proof. exact (Z.land_ones x 6 ltac:(lia)). Qed.

Lemma kind_bits_div (head : Z) : kind_bits head = (head / 64) mod 4.
Proof.
  unfold kind_bits, U8.shr. rewrite land3_mod, Z.shiftr_div_pow2 by lia.
  reflexivity.
Qed.

Lemma seq_bits_div (head : Z) : seq_bits head = (head / 4) mod 16.
Proof.
  unfold seq_bits, U8.shr. rewrite land15_mod, Z.shiftr_div_pow2 by lia.
  reflexivity.
Qed.

Lemma header_sum (pt seq low : Z) :
  0 <= low < 4 -> header pt seq low = 64 * (pt mod 4) + 4 * (seq mod 16) + low.
Proof.
  intros Hl.
  assert (Hall : below 4 (fun p => below 16 (fun s =>
                   below 4 (fun l => header_sum_ok p s l))) = true)
    by (vm_compute; reflexivity).
  pose proof (below_spec 4 _ Hall _ (land3_range pt)) as H1. cbv beta in H1.
  pose proof (below_spec 16 _ H1 _ (land15_range seq)) as H2. cbv beta in H2.
  pose proof (below_spec 4 _ H2 low Hl) as H3.
  apply Z.eqb_eq in H3. unfold header. rewrite H3, land3_mod, land15_mod.
  reflexivity.
Qed.

Lemma continuation_sum (d0 : Z) (info : APCI) :
  continuation d0 info = 64 * (info mod 4) + d0 mod 64.
Proof.
  assert (Hall : below 64 (fun v => below 4 (fun i =>
                   continuation_sum_ok v i)) = true)
    by (vm_compute; reflexivity).
  pose proof (below_spec 64 _ Hall _ (land63_range d0)) as H1. cbv beta in H1.
  pose proof (below_spec 4 _ H1 _ (land3_range info)) as H2.
  apply Z.eqb_eq in H2. unfold continuation, info_low.
  rewrite H2, land3_mod, land63_mod. reflexivity.
Qed.

Lemma info_low_sum (info : APCI) : info_low info = 64 * (info mod 4).
Proof.
  pose proof (continuation_sum 0 info) as H. unfold continuation in H.
  rewrite Z.lor_0_l in H. rewrite H. rewrite Z.mod_0_l by lia. lia.
Qed.

Lemma info_high_div (info : APCI) : info_high info = (info / 4) mod 4.
Proof.
  unfold info_high, U8.wrap, U8.shr.
  rewrite land3_mod, Z.shiftr_div_pow2 by lia. change (2 ^ 2) with 4.
  apply Z.mod_mod_divide. exists 64. reflexivity.
Qed.

Lemma info_sum (low top : Z) :
  0 <= low < 4 -> 0 <= top < 4 -> Z.lor (U8.shl low 2) top = 4 * low + top.
Proof.
  intros Hl Ht.
  assert (Hall : below 4 (fun l => below 4 (fun t => info_sum_ok l t)) = true)
    by (vm_compute; reflexivity).
  pose proof (below_spec 4 _ Hall low Hl) as H1. cbv beta in H1.
  pose proof (below_spec 4 _ H1 top Ht) as H2.
  apply Z.eqb_eq in H2. exact H2.
Qed.

(** X14: the bytes the encoder writes, as sums.  A control packet is the
    one byte [64 * type + 4 * (sequence mod 16) + control mod 4].  A data
    packet starts with [64 * type + 4 * (sequence mod 16) + (info / 4) mod 4]
    and [64 * (info mod 4) + d0 mod 64], where [d0] is the first payload
    byte, or 0 when there is none; the payload bytes after [d0] follow. *)
Theorem WriteTo_buffer_layout (tpdu : TPDU) :
  (PacketType tpdu = UnnumberedControlPacket \/
   PacketType tpdu = NumberedControlPacket ->
   WriteTo_buffer tpdu =
   [64 * PacketType tpdu + 4 * (SeqNumber tpdu mod 16) + Control tpdu mod 4])
  /\ (PacketType tpdu = UnnumberedDataPacket \/
      PacketType tpdu = NumberedDataPacket ->
      WriteTo_buffer tpdu =
      (64 * PacketType tpdu + 4 * (SeqNumber tpdu mod 16)
       + (Info tpdu / 4) mod 4)
      :: (64 * (Info tpdu mod 4) + hd 0 (Data tpdu) mod 64)
      :: tl (Data tpdu)).
Proof.
  split; intros Hk.
  - assert (Hpt : PacketType tpdu mod 4 = PacketType tpdu)
      by (destruct Hk as [-> | ->]; reflexivity).
    apply is_control_iff in Hk. rewrite (WriteTo_buffer_control _ Hk).
    pose proof (land3_range (Control tpdu)) as Hr.
    unfold U8.wrap. rewrite (Z.mod_small _ 256) by lia.
    rewrite header_sum by exact Hr. rewrite Hpt, land3_mod. reflexivity.
  - assert (Hpt : PacketType tpdu mod 4 = PacketType tpdu)
      by (destruct Hk as [-> | ->]; reflexivity).
    apply is_data_iff in Hk. rewrite (WriteTo_buffer_data _ Hk).
    rewrite header_sum by (unfold info_high; apply land3_range).
    rewrite Hpt, info_high_div.
    destruct (Data tpdu) as [|d0 ds]; cbn [hd tl].
    + rewrite info_low_sum, Z.mod_0_l by lia. rewrite Z.add_0_r.
      reflexivity.
    + rewrite continuation_sum. reflexivity.
Qed.

Lemma WriteTo_buffer_layout_witness :
  WriteTo_buffer numbered_ack = [64 * 3 + 4 * (11 mod 16) + 2 mod 4]
  /\ WriteTo_buffer memory_response =
     (64 * 1 + 4 * (0x1d mod 16) + (9 / 4) mod 4)
     :: (64 * (9 mod 4) + 0xff mod 64) :: [0x01; 0x02; 0x03].
Proof.
  split.
  - apply (proj1 (WriteTo_buffer_layout numbered_ack)). right. reflexivity.
  - apply (proj2 (WriteTo_buffer_layout memory_response)). right. reflexivity.
Defined.

(** X15: the fields the decoder reads, as quotients and remainders.  The
    packet type is [(head / 64) mod 4], the sequence number
    [(head / 4) mod 16]; a control packet has control [head mod 4]; a data
    packet has service code [4 * (head mod 4) + (d0 / 64) mod 4] for the
    byte [d0] after the header, and payload [d0 mod 64] when [d0] is the
    last byte. *)
Theorem ReadFrom_layout (head d0 : Z) (rest ds : list Z) (c : option ioerr)
        (into : TPDU) :
  ((head / 64) mod 4 = UnnumberedControlPacket \/
   (head / 64) mod 4 = NumberedControlPacket ->
   ReadFrom (mkReader (head :: rest) c) into =
   (mkReader rest c,
    mkTPDU ((head / 64) mod 4) ((head / 4) mod 16) (head mod 4) 0 [], None))
  /\ ((head / 64) mod 4 = UnnumberedDataPacket \/
      (head / 64) mod 4 = NumberedDataPacket ->
      ReadFrom (NewReader (head :: d0 :: ds)) into =
      (NewReader [],
       mkTPDU ((head / 64) mod 4) ((head / 4) mod 16) 0
              (4 * (head mod 4) + (d0 / 64) mod 4)
              (match ds with [] => [d0 mod 64] | _ :: _ => ds end),
       None)).
Proof.
  rewrite <- kind_bits_div, <- seq_bits_div. split; intros Hk.
  - apply is_control_iff in Hk. rewrite (ReadFrom_control _ _ _ _ Hk).
    unfold low_bits. rewrite land3_mod. reflexivity.
  - apply is_data_iff in Hk. unfold NewReader.
    rewrite (ReadFrom_data _ _ _ _ Hk).
    rewrite info_sum by (unfold low_bits; apply land3_range).
    fold (kind_bits d0). rewrite (kind_bits_div d0).
    unfold low_bits. rewrite land3_mod, land63_mod. reflexivity.
Qed.

Lemma ReadFrom_layout_witness :
  ReadFrom (mkReader [0xd6; 7; 8] None) blank =
    (mkReader [7; 8] None,
     mkTPDU ((0xd6 / 64) mod 4) ((0xd6 / 4) mod 16) (0xd6 mod 4) 0 [], None)
  /\ ReadFrom (NewReader [0x27; 0xea]) blank =
     (NewReader [],
      mkTPDU ((0x27 / 64) mod 4) ((0x27 / 4) mod 16) 0
             (4 * (0x27 mod 4) + (0xea / 64) mod 4) [0xea mod 64],
      None).
Proof.
  split.
  - apply (proj1 (ReadFrom_layout 0xd6 0 [7; 8] [] None blank)).
    right. reflexivity.
  - apply (proj2 (ReadFrom_layout 0x27 0xea [] [] None blank)).
    left. reflexivity.
Defined.

(** * Several data units on one stream *)

Lemma WriteTo_buffer_nonempty (tpdu : TPDU) :
  exists b bs, WriteTo_buffer tpdu = b :: bs.
Proof.
  destruct (is_control (PacketType tpdu)) eqn:Hc.
  - rewrite (WriteTo_buffer_control _ Hc). eauto.
  - destruct (is_data (PacketType tpdu)) eqn:Hd.
    + rewrite (WriteTo_buffer_data _ Hd). eauto.
    + rewrite (WriteTo_buffer_other _ Hc Hd). eauto.
Qed.

(** X16: the wire format frames control packets only.  When two data units
    are written one after the other, a control packet in front is read back
    alone and the reader is left at the bytes of the second; a data packet
    in front is read to the end of the stream, so the bytes of the second
    data unit come back as the tail of its payload. *)
Theorem ReadFrom_written_in_a_row (first second into : TPDU) :
  (PacketType first = UnnumberedControlPacket \/
   PacketType first = NumberedControlPacket ->
   ReadFrom (NewReader (written_in_a_row first second)) into =
   (NewReader (WriteTo_buffer second),
    mkTPDU (PacketType first) (Z.land (SeqNumber first) 15)
           (Z.land (Control first) 3) 0 [],
    None))
  /\ (PacketType first = UnnumberedDataPacket \/
      PacketType first = NumberedDataPacket ->
      ReadFrom (NewReader (written_in_a_row first second)) into =
      (NewReader [],
       mkTPDU (PacketType first) (Z.land (SeqNumber first) 15) 0
              (Z.land (Info first) 15)
              (tl (Data first) ++ WriteTo_buffer second),
       None)).
Proof.
  unfold written_in_a_row, WriteTo, Write, Buffer_Writer, NewReader.
  cbn [fst app]. split; intros Hk.
  - apply is_control_iff in Hk. rewrite (WriteTo_buffer_control _ Hk).
    pose proof (land3_range (Control first)) as Hr.
    assert (Hw : U8.wrap (Z.land (Control first) 3) = Z.land (Control first) 3)
      by (apply Z.mod_small; lia).
    rewrite Hw.
    destruct (header_fields (PacketType first) (SeqNumber first)
                (Z.land (Control first) 3) Hr) as (Hkind & Hs & Hl).
    rewrite (packet_type_mask (PacketType first)) in Hkind
      by (rewrite Hk; reflexivity).
    cbn [app]. rewrite ReadFrom_control by (rewrite Hkind; exact Hk).
    rewrite Hkind, Hs, Hl. reflexivity.
  - apply is_data_iff in Hk. rewrite (WriteTo_buffer_data _ Hk).
    destruct (header_fields (PacketType first) (SeqNumber first)
                (info_high (Info first)) (land3_range _)) as (Hkind & Hs & Hl).
    rewrite (packet_type_mask (PacketType first)) in Hkind
      by (rewrite Hk; apply orb_true_r).
    assert (Hd : is_data (kind_bits (header (PacketType first)
                   (SeqNumber first) (info_high (Info first)))) = true)
      by (rewrite Hkind; exact Hk).
    destruct (WriteTo_buffer_nonempty second) as (b & bs & ->).
    destruct (Data first) as [|d0 ds]; cbn [app tl].
    + rewrite (ReadFrom_data _ _ _ _ Hd), Hkind, Hs, Hl.
      destruct (info_low_fields (Info first)) as [-> _].
      rewrite info_rejoin. reflexivity.
    + rewrite (ReadFrom_data _ _ _ _ Hd), Hkind, Hs, Hl.
      destruct (continuation_fields d0 (Info first)) as [-> _].
      rewrite info_rejoin. destruct ds; reflexivity.
Qed.

Lemma ReadFrom_written_in_a_row_witness :
  ReadFrom (NewReader (written_in_a_row numbered_ack group_write)) blank =
    (NewReader (WriteTo_buffer group_write),
     mkTPDU (PacketType numbered_ack) (Z.land (SeqNumber numbered_ack) 15)
            (Z.land (Control numbered_ack) 3) 0 [],
     None)
  /\ ReadFrom (NewReader (written_in_a_row group_write numbered_ack)) blank =
     (NewReader [],
      mkTPDU (PacketType group_write) (Z.land (SeqNumber group_write) 15) 0
             (Z.land (Info group_write) 15)
             (tl (Data group_write) ++ WriteTo_buffer numbered_ack),
      None).
Proof.
  split.
  - apply (proj1 (ReadFrom_written_in_a_row numbered_ack group_write blank)).
    right. reflexivity.
  - apply (proj2 (ReadFrom_written_in_a_row group_write numbered_ack blank)).
    left. reflexivity.
Defined.

(** * Masking in the encoder *)

(** Whatever the data unit, the encoder's first byte is a header with the
    packet type and the sequence number in it; for a control packet it is
    the only byte and its low bits are the control field cut to two bits. *)
Lemma WriteTo_buffer_header (tpdu : TPDU) :
  exists low rest,
    0 <= low < 4
    /\ WriteTo_buffer tpdu =
       header (PacketType tpdu) (SeqNumber tpdu) low :: rest
    /\ (is_control (PacketType tpdu) = true ->
        rest = [] /\ low = Z.land (Control tpdu) 3).
Proof.
  destruct (is_control (PacketType tpdu)) eqn:Hc.
  - exists (Z.land (Control tpdu) 3), [].
    pose proof (land3_range (Control tpdu)) as Hr.
    split; [exact Hr|]. split; [|auto].
    rewrite (WriteTo_buffer_control _ Hc). unfold U8.wrap.
    rewrite (Z.mod_small _ 256) by lia. reflexivity.
  - destruct (is_data (PacketType tpdu)) eqn:Hd.
    + eexists (info_high (Info tpdu)), _.
      split; [apply land3_range|]. split; [|discriminate].
      exact (WriteTo_buffer_data _ Hd).
    + exists 0, []. split; [lia|]. split; [|discriminate].
      exact (WriteTo_buffer_other _ Hc Hd).
Qed.

(** C7: the encoder masks instead of rejecting.  The first byte it writes
    is a byte whose bits 7-6 are the packet type cut to two bits and whose
    bits 5-2 are the sequence number cut to four; for a control packet that
    byte is all that is written, its bits 1-0 are the control field cut to
    two bits, and it equals
    [64 * type + 4 * (sequence & 15) + (control & 3)].  So two data units
    that agree on packet type, service code and payload, on the low four
    bits of the sequence number and on the low two bits of the control field
    are written as the same bytes to every sink; and the only error of
    [WriteTo] is the sink's: a sink that accepts what it is given, such as a
    [bytes.Buffer], makes it succeed for every data unit. *)
Theorem WriteTo_masks (t1 t2 : TPDU) :
  PacketType t1 = PacketType t2 ->
  Info t1 = Info t2 ->
  Data t1 = Data t2 ->
  Z.land (SeqNumber t1) 15 = Z.land (SeqNumber t2) 15 ->
  Z.land (Control t1) 3 = Z.land (Control t2) 3 ->
  (exists head rest,
      WriteTo_buffer t1 = head :: rest
      /\ 0 <= head < 256
      /\ Z.land (Z.shiftr head 6) 3 = Z.land (PacketType t1) 3
      /\ Z.land (Z.shiftr head 2) 15 = Z.land (SeqNumber t1) 15
      /\ (PacketType t1 = UnnumberedControlPacket \/
          PacketType t1 = NumberedControlPacket ->
          rest = []
          /\ Z.land head 3 = Z.land (Control t1) 3
          /\ head = 64 * PacketType t1 + 4 * Z.land (SeqNumber t1) 15
                    + Z.land (Control t1) 3))
  /\ WriteTo_buffer t1 = WriteTo_buffer t2
  /\ (forall (W : Type) (sink : Writer W) (w : W),
         WriteTo t1 w = WriteTo t2 w)
  /\ (forall (W : Type) (sink : Writer W),
         (forall (w : W) (bs : list Z), snd (Write w bs) = None) ->
         forall w : W, snd (WriteTo t1 w) = None /\ snd (WriteTo t2 w) = None)
  /\ (forall b : Buffer,
         WriteTo t1 b = (b ++ WriteTo_buffer t1, None)
         /\ WriteTo t2 b = (b ++ WriteTo_buffer t2, None)).
Proof.
  intros Hpt Hinfo Hdata Hseq Hctl.
  assert (Hbuf : WriteTo_buffer t1 = WriteTo_buffer t2).
  { rewrite (WriteTo_buffer_masked t1), (WriteTo_buffer_masked t2).
    rewrite Hpt, Hinfo, Hdata, Hseq, Hctl. reflexivity. }
  split; [|split; [exact Hbuf|split; [|split]]].
  - destruct (WriteTo_buffer_header t1) as (low & rest & Hlow & Hhead & Hone).
    destruct (header_fields (PacketType t1) (SeqNumber t1) low Hlow)
      as (Hk & Hs & Hl).
    exists (header (PacketType t1) (SeqNumber t1) low), rest.
    split; [exact Hhead|].
    split; [exact (header_valid _ _ _ Hlow)|].
    split; [exact Hk|]. split; [exact Hs|].
    intros Hkind.
    assert (Hmod : PacketType t1 mod 4 = PacketType t1)
      by (destruct Hkind as [-> | ->]; reflexivity).
    apply is_control_iff in Hkind. destruct (Hone Hkind) as [-> ->].
    split; [reflexivity|]. split; [exact Hl|].
    rewrite header_sum by exact Hlow. rewrite Hmod, land15_mod. reflexivity.
  - intros W sink w. unfold WriteTo. rewrite Hbuf. reflexivity.
  - intros W sink Hsink w. unfold WriteTo. split; apply Hsink.
  - intros b. split; reflexivity.
Qed.

(** Sequence number 31 against 15, control 7 against 3: both are written as
    the one byte [0xff]. *)
Lemma WriteTo_masks_witness :
  (exists head rest,
      WriteTo_buffer wide_ack = head :: rest
      /\ 0 <= head < 256
      /\ Z.land (Z.shiftr head 6) 3 = Z.land (PacketType wide_ack) 3
      /\ Z.land (Z.shiftr head 2) 15 = Z.land (SeqNumber wide_ack) 15
      /\ (PacketType wide_ack = UnnumberedControlPacket \/
          PacketType wide_ack = NumberedControlPacket ->
          rest = []
          /\ Z.land head 3 = Z.land (Control wide_ack) 3
          /\ head = 64 * PacketType wide_ack + 4 * Z.land (SeqNumber wide_ack) 15
                    + Z.land (Control wide_ack) 3))
  /\ WriteTo_buffer wide_ack = WriteTo_buffer narrow_ack
  /\ (forall (W : Type) (sink : Writer W) (w : W),
         WriteTo wide_ack w = WriteTo narrow_ack w)
  /\ (forall (W : Type) (sink : Writer W),
         (forall (w : W) (bs : list Z), snd (Write w bs) = None) ->
         forall w : W,
           snd (WriteTo wide_ack w) = None /\ snd (WriteTo narrow_ack w) = None)
  /\ (forall b : Buffer,
         WriteTo wide_ack b = (b ++ WriteTo_buffer wide_ack, None)
         /\ WriteTo narrow_ack b = (b ++ WriteTo_buffer narrow_ack, None)).
Proof.
  apply (WriteTo_masks wide_ack narrow_ack); reflexivity.
Defined.
